(** * The soil-analysis relay of [server.js]

    A shallow embedding of the single route [POST /analyze-soil] and of its
    helper [callGemini], followed by the properties of the route that the
    specification states.

    JavaScript values are an inductive type, numbers are IEEE binary64
    floats, objects are finite maps from property names to values, and text
    is carried as the UTF-8 byte string found in the source file.  The one
    effect that leaves the process, [axios.post], and the logging done by
    [console.error] are the two operations of a small free monad; a run
    against an arbitrary upstream yields the response together with the
    trace of what happened. *)

From Stdlib Require Import ZArith Ascii PrimFloat SpecFloat FloatOps DecimalString.
From stdpp Require Import gmap strings list.

#[local] Set Warnings "-register-all".
#[local] Open Scope Z_scope.

(** ** JavaScript values *)

Inductive value : Type :=
| VUndefined
| VNull
| VBool (b : bool)
| VNumber (f : float)
| VString (s : string)
| VArray (l : list value)
| VObject (o : gmap string value).

(** What the engine throws while running the handler's own statements. *)
Inductive type_error : Type :=
| DestructureUndefined  (* [const { ... } = req.body] with no body at all *)
| DestructureNull       (* the same with a [null] body *)
| NotPrimitive.         (* an object that cannot be converted to a primitive *)

(** What [axios] hands back.  A response carries the status line and the
    decoded body; an [AxiosError] always has a textual [message] and has a
    [response] only when the server answered. *)
Record axios_response : Type := { status : Z; data : value }.

Record axios_error : Type := { message : string; response : option axios_response }.

Inductive axios_outcome : Type :=
| Resolved (r : axios_response)
| Rejected (e : axios_error).

(** The values a [catch] clause of this program can receive. *)
Inductive exn : Type :=
| AxiosError (e : axios_error)
| TypeError (t : type_error).

Inductive result (A : Type) : Type :=
| Ok (a : A)
| Throw (e : exn).

Arguments Ok {A} a.
Arguments Throw {A} e.

(** ** What the host provides

    The text of a number ([Number::toString]) and the wording of the
    engine's own error messages belong to the JavaScript engine, and the API
    key to the process environment; none of them is in the repository. *)
Class Host : Type := {
  Number_toString : float → string;
  TypeError_message : type_error → string;
  env_GEMINI_API_KEY : option string
}.

(** ** The fragment of the language the route uses *)

Definition nullish (v : value) : bool :=
  match v with
  | VUndefined | VNull => true
  | _ => false
  end.

(** [ToBoolean]. *)
Definition truthy (v : value) : bool :=
  match v with
  | VUndefined | VNull => false
  | VBool b => b
  | VNumber f => negb (is_zero f || is_nan f)
  | VString s => negb (String.eqb s "")
  | VArray _ | VObject _ => true
  end.

(** [a || b] on values. *)
Definition or_else (a b : value) : value := if truthy a then a else b.

(** [v === undefined]. *)
Definition is_undefined (v : value) : bool :=
  match v with
  | VUndefined => true
  | _ => false
  end.

(** The one-unit string at index 0 of a string.  Text is kept as UTF-8, so
    the unit is the first byte; the program only ever reads a named property
    of the result, which no string has. *)
Definition string_head (s : string) : value :=
  match s with
  | EmptyString => VUndefined
  | String c _ => VString (String c EmptyString)
  end.

(** [v.k] and [v[0]] for a base [v] that is neither [null] nor [undefined].
    The names read by this program ([temperature] ... [cropName],
    [candidates], [content], [parts], [text], [error], [message]) are found
    on no built-in prototype, so on an object the answer is the own property
    or [undefined]; ["0"] is the first element of an array and the first
    unit of a string. *)
Definition member (v : value) (k : string) : value :=
  match v with
  | VObject o => default VUndefined (o !! k)
  | VArray l => if String.eqb k "0" then default VUndefined (head l) else VUndefined
  | VString s => if String.eqb k "0" then string_head s else VUndefined
  | _ => VUndefined
  end.

(** [v?.k] and [v?.[0]]. *)
Definition opt_member (v : value) (k : string) : value :=
  if nullish v then VUndefined else member v k.

Definition comma : string := ",".

Section WithHost.
Context `{Host}.

(** [ToString], as a template literal applies it.  An array is joined with
    commas, [null] and [undefined] elements giving the empty text.  A plain
    object gives ["[object Object]"] through [Object.prototype.toString],
    unless it has a [toString] property of its own: a decoded JSON value is
    never callable, [valueOf] then returns the object itself, and the
    conversion throws. *)
Fixpoint ToString (v : value) : result string :=
  match v with
  | VUndefined => Ok "undefined"
  | VNull => Ok "null"
  | VBool b => Ok (if b then "true" else "false")
  | VNumber f => Ok (Number_toString f)
  | VString s => Ok s
  | VArray l =>
      (fix join (l : list value) : result string :=
         match l with
         | [] => Ok ""
         | x :: rest =>
             match (if nullish x then Ok "" else ToString x) with
             | Throw e => Throw e
             | Ok s =>
                 match rest with
                 | [] => Ok s
                 | _ :: _ =>
                     match join rest with
                     | Throw e => Throw e
                     | Ok r => Ok (s +:+ comma +:+ r)
                     end
                 end
             end
         end) l
  | VObject o =>
      match o !! "toString" with
      | Some _ => Throw (TypeError NotPrimitive)
      | None => Ok "[object Object]"
      end
  end.

(** [error.message] and [error.response] for a caught value. *)
Definition exn_message (e : exn) : string :=
  match e with
  | AxiosError a => message a
  | TypeError t => TypeError_message t
  end.

Definition exn_response (e : exn) : option axios_response :=
  match e with
  | AxiosError a => response a
  | TypeError _ => None
  end.

(** [const apiKey = process.env.GEMINI_API_KEY || ""]: an unset variable and
    an empty one both give the empty key. *)
Definition apiKey : string := default "" env_GEMINI_API_KEY.

End WithHost.

Definition GEMINI_API_URL : string :=
  "https://generativelanguage.googleapis.com/v1beta/models/gemini-2.5-flash-preview-09-2025:generateContent".

(** ** Sequencing *)

#[export] Instance result_ret : MRet result := λ A a, Ok a.

#[export] Instance result_bind : MBind result :=
  λ A B k m, match m with
             | Ok a => k a
             | Throw e => Throw e
             end.

(** The request that [axios.post(url, payload, {headers})] sends. *)
Record http_call : Type := {
  url : string;
  payload : value;
  headers : gmap string string
}.

(** Programs over the two operations that reach outside the handler. *)
Inductive io (A : Type) : Type :=
| Ret (a : A)
| AxiosPost (c : http_call) (k : axios_outcome → io A)
| ConsoleError (args : list value) (k : io A).

Arguments Ret {A} a.
Arguments AxiosPost {A} c k.
Arguments ConsoleError {A} args k.

Fixpoint io_bind {A B : Type} (k : A → io B) (m : io A) : io B :=
  match m with
  | Ret a => k a
  | AxiosPost c h => AxiosPost c (λ o, io_bind k (h o))
  | ConsoleError args h => ConsoleError args (io_bind k h)
  end.

#[export] Instance io_mret : MRet io := λ A a, Ret a.

#[export] Instance io_mbind : MBind io := λ A B k m, io_bind k m.

(** [await m] inside a [try] block: a rejection leaves the block. *)
Definition await {A B : Type} (m : io (result A)) (k : A → io (result B)) : io (result B) :=
  r ← m;
  match r with
  | Ok a => k a
  | Throw e => Ret (Throw e)
  end.

(** What the route answers: [res.status(c).json(v)]; [res.json(v)] alone
    leaves the status at 200. *)
Record http_response : Type := { res_status : Z; res_json : value }.

(** The nine constants bound by [const { ... } = req.body]. *)
Record soil_sample : Type := {
  temperature : value;
  humidity : value;
  moisture : value;
  nitrogen : value;
  phosphorus : value;
  potassium : value;
  ph : value;
  rainfall : value;
  cropName : value
}.

Definition required_fields : list string :=
  ["temperature"; "humidity"; "moisture"; "nitrogen"; "phosphorus";
   "potassium"; "ph"; "rainfall"; "cropName"].

(** The values the nine names are bound to when the body can be read. *)
Definition bindings (body : value) : soil_sample :=
  {| temperature := member body "temperature";
     humidity := member body "humidity";
     moisture := member body "moisture";
     nitrogen := member body "nitrogen";
     phosphorus := member body "phosphorus";
     potassium := member body "potassium";
     ph := member body "ph";
     rainfall := member body "rainfall";
     cropName := member body "cropName" |}.

(** Destructuring throws on [null] and [undefined] and reads properties of
    anything else. *)
Definition destructure (body : value) : result soil_sample :=
  match body with
  | VUndefined => Throw (TypeError DestructureUndefined)
  | VNull => Throw (TypeError DestructureNull)
  | _ => Ok (bindings body)
  end.

(** The condition of the [if] that guards the 400 answer. *)
Definition missing_fields (s : soil_sample) : bool :=
  is_undefined (temperature s) ||
  is_undefined (humidity s) ||
  is_undefined (moisture s) ||
  is_undefined (nitrogen s) ||
  is_undefined (phosphorus s) ||
  is_undefined (potassium s) ||
  is_undefined (ph s) ||
  is_undefined (rainfall s) ||
  negb (truthy (cropName s)).

Definition nl : string := String "010"%char EmptyString.

Definition dq : string := String "034"%char EmptyString.

Definition glue (pieces : list string) : string := foldr String.append "" pieces.

(** The template literal, with the substitutions already converted. *)
Definition prompt_template
    (cropName temperature humidity moisture nitrogen phosphorus potassium ph rainfall : string)
    : string :=
  glue
    [
      nl;
      "You are an expert soil scientist and crop advisor. Analyze the following soil and environmental data to assess if the conditions are suitable for growing "; cropName; ". Then, provide recommendations for improvement."; nl;
      nl;
      "Your analysis MUST be concise and practical."; nl;
      nl;
      "---"; nl;
      "[DATA]"; nl;
      "🌡️ Temperature: "; temperature; " °C"; nl;
      "💧 Humidity: "; humidity; " %"; nl;
      "🌱 Soil Moisture: "; moisture; nl;
      "🧪 Nitrogen (N): "; nitrogen; " ppm"; nl;
      "🧪 Phosphorus (P): "; phosphorus; " ppm"; nl;
      "🧪 Potassium (K): "; potassium; " ppm"; nl;
      "⚗️ pH: "; ph; nl;
      "🌧️ Rainfall: "; rainfall; " mm"; nl;
      nl;
      "---"; nl;
      "[REQUEST]"; nl;
      "Provide a short report in Markdown format with these exact sections:"; nl;
      "1.  **Soil Health Status:** (Brief overview of N, P, K, and pH)"; nl;
      "2.  **"; cropName; " Suitability:** (Clear "; dq; "Yes"; dq; ", "; dq; "No"; dq; ", or "; dq; "Marginal"; dq; " with reason)"; nl;
      "3.  **Recommendations:** (Bulleted list of 2-3 top actions for fertilizer or amendments)"; nl;
      "4.  **Summary:** (A single-line conclusion)"; nl
    ].

Definition missing_fields_message : string := "Missing required fields in the request body.".

Definition fallback_text : string := "No response from Gemini.".

Definition rate_limit_error : string := "Gemini API rate limit exceeded. (RESOURCE_EXHAUSTED)".

Definition quota_message : string := "Quota exceeded. Please wait 1 minute and try again.".

Definition internal_error : string :=
  "Internal Server Error. Please check your request or server logs.".

(** [err.response?.data]. *)
Definition response_data (r : option axios_response) : value :=
  match r with
  | Some a => data a
  | None => VUndefined
  end.

(** [d?.error?.message] for [d] the value of [error.response?.data]. *)
Definition upstream_message (d : value) : value :=
  opt_member (opt_member d "error") "message".

(** [aiRes.data?.candidates?.[0]?.content?.parts?.[0]?.text]. *)
Definition text_path (d : value) : value :=
  opt_member
    (opt_member
       (opt_member
          (opt_member
             (opt_member (opt_member d "candidates") "0")
             "content")
          "parts")
       "0")
    "text".

Definition aiText (aiRes : axios_response) : value :=
  or_else (text_path (data aiRes)) (VString fallback_text).

(** The arguments of [console.error] in [callGemini]. *)
Definition log_line (err : axios_error) : list value :=
  [VString "❌ Error calling Gemini:";
   or_else (response_data (response err)) (VString (message err))].

(** [res.json({ success: true, crop: cropName, analysis: aiText })]. *)
Definition success (s : soil_sample) (aiRes : axios_response) : http_response :=
  {| res_status := 200;
     res_json := VObject {[ "success" := VBool true;
                            "crop" := cropName s;
                            "analysis" := aiText aiRes ]} |}.

(** [res.status(400).json({ error: ... })]. *)
Definition bad_request : http_response :=
  {| res_status := 400;
     res_json := VObject {[ "error" := VString missing_fields_message ]} |}.

Section Route.
Context `{Host}.

(** The template literal: each substitution is converted in the order in
    which it occurs; the second [cropName] converts the same value again. *)
Definition prompt (s : soil_sample) : result string :=
  c ← ToString (cropName s);
  t ← ToString (temperature s);
  h ← ToString (humidity s);
  m ← ToString (moisture s);
  n ← ToString (nitrogen s);
  p ← ToString (phosphorus s);
  k ← ToString (potassium s);
  a ← ToString (ph s);
  r ← ToString (rainfall s);
  Ok (prompt_template c t h m n p k a r).

Definition gemini_request (prompt : string) : http_call :=
  {| url := GEMINI_API_URL +:+ "?key=" +:+ apiKey;
     payload :=
       VObject {[ "contents" :=
         VArray [VObject {[ "parts" :=
           VArray [VObject {[ "text" := VString prompt ]}] ]}] ]};
     headers := {[ "Content-Type" := "application/json" ]} |}.

(** [callGemini]: one [axios.post]; a rejection is logged and thrown again. *)
Definition callGemini (prompt : string) : io (result axios_response) :=
  AxiosPost (gemini_request prompt)
    (λ outcome,
       match outcome with
       | Resolved response => Ret (Ok response)
       | Rejected err =>
           ConsoleError (log_line err) (Ret (Throw (AxiosError err)))
       end).

(** The [try] block of the route. *)
Definition try_block (body : value) : io (result http_response) :=
  match destructure body with
  | Throw e => Ret (Throw e)
  | Ok s =>
      if missing_fields s then Ret (Ok bad_request)
      else
        match prompt s with
        | Throw e => Ret (Throw e)
        | Ok text =>
            await (callGemini text) (λ aiRes, Ret (Ok (success s aiRes)))
        end
  end.

(** The [catch] clause of the route. *)
Definition catch_block (error : exn) : http_response :=
  if (match exn_response error with
      | Some r => status r =? 429
      | None => false
      end)
  then
    {| res_status := 429;
       res_json :=
         VObject {[ "error" := VString rate_limit_error;
                    "message" :=
                      or_else
                        (upstream_message (response_data (exn_response error)))
                        (VString quota_message) ]} |}
  else
    {| res_status := 500;
       res_json :=
         VObject {[ "error" := VString internal_error;
                    "message" := VString (exn_message error) ]} |}.

(** [app.post("/analyze-soil", async (req, res) => ...)], as a function of
    [req.body]. *)
Definition analyze_soil (body : value) : io http_response :=
  r ← try_block body;
  match r with
  | Ok answer => Ret answer
  | Throw error => Ret (catch_block error)
  end.

End Route.

(** ** Running a handler against an upstream *)

Inductive event : Type :=
| EvPost (c : http_call) (o : axios_outcome)
| EvLog (args : list value).

(** An upstream decides the outcome of a call from the calls made before it
    and the call itself. *)
Definition upstream : Type := list http_call → http_call → axios_outcome.

Fixpoint run {A : Type} (up : upstream) (past : list http_call) (m : io A)
    : A * list event :=
  match m with
  | Ret a => (a, [])
  | AxiosPost c k =>
      let o := up past c in
      let '(a, tr) := run up (past ++ [c]) (k o) in
      (a, EvPost c o :: tr)
  | ConsoleError args k =>
      let '(a, tr) := run up past k in
      (a, EvLog args :: tr)
  end.

(** The outbound calls of a trace, in order. *)
Fixpoint calls (tr : list event) : list http_call :=
  match tr with
  | [] => []
  | EvPost c _ :: rest => c :: calls rest
  | EvLog _ :: rest => calls rest
  end.

(** A request is served from a fresh history: nothing is shared between
    requests. *)
Definition serve `{Host} (up : upstream) (body : value) : http_response * list event :=
  run up [] (analyze_soil body).

(** What is answered and recorded once the call has been made. *)
Definition after_call `{Host} (s : soil_sample) (c : http_call) (outcome : axios_outcome)
    : http_response * list event :=
  match outcome with
  | Resolved r => (success s r, [EvPost c (Resolved r)])
  | Rejected err =>
      (catch_block (AxiosError err), [EvPost c (Rejected err); EvLog (log_line err)])
  end.

(** The calls that serving a body sends upstream, read off the handler. *)
Definition outbound `{Host} (body : value) : list http_call :=
  match destructure body with
  | Throw _ => []
  | Ok s =>
      if missing_fields s then []
      else match prompt s with
           | Throw _ => []
           | Ok text => [gemini_request text]
           end
  end.

(** ** The shape the upstream documents

    The text of the first part of the content of the first candidate, when
    the decoded body is an object built that way. *)
Definition first_text (d : value) : option value :=
  match d with
  | VObject o =>
      match o !! "candidates" with
      | Some (VArray (VObject candidate :: _)) =>
          match candidate !! "content" with
          | Some (VObject content) =>
              match content !! "parts" with
              | Some (VArray (VObject part :: _)) => part !! "text"
              | _ => None
              end
          | _ => None
          end
      | _ => None
      end
  | _ => None
  end.

(** ** A host to run examples on

    Node.js with a key in the environment.  [Number_toString] here writes the
    exact decimal expansion of a double, which is what [Number::toString]
    prints for the doubles whose expansion is short (whole numbers and short
    fractions such as 25, 100, 0 and 6.5); elsewhere the two differ (0.1,
    1e21), and the examples stay within the former. *)
Module Node.

Definition digits (z : Z) : list ascii := String.list_ascii_of_string (NilZero.string_of_int (Z.to_int z)).

Definition zero_digit : ascii := "0"%char.

Fixpoint drop_zeros (ds : list ascii) : list ascii :=
  match ds with
  | c :: rest => if bool_decide (c = zero_digit) then drop_zeros rest else ds
  | [] => []
  end.

(** The decimal numeral of [n / 10^k] for [0 <= n]. *)
Definition fixed_point (n : Z) (k : nat) : string :=
  let ds := digits n in
  let ds := replicate (S k - length ds) zero_digit ++ ds in
  let whole := take (length ds - k) ds in
  let frac := reverse (drop_zeros (reverse (drop (length ds - k) ds))) in
  String.string_of_list_ascii
    (match frac with
     | [] => whole
     | _ :: _ => whole ++ "."%char :: frac
     end).

Definition exact_decimal (f : float) : string :=
  match Prim2SF f with
  | S754_nan => "NaN"
  | S754_zero _ => "0"
  | S754_infinity s => if s then "-Infinity" else "Infinity"
  | S754_finite s m e =>
      (if s then "-" else "") +:+
      (if 0 <=? e then fixed_point (Z.pos m * 2 ^ e) 0
       else fixed_point (Z.pos m * 5 ^ (- e)) (Z.to_nat (- e)))
  end.

Definition v8_message (t : type_error) : string :=
  match t with
  | DestructureUndefined =>
      "Cannot destructure property 'temperature' of 'req.body' as it is undefined."
  | DestructureNull =>
      "Cannot destructure property 'temperature' of 'req.body' as it is null."
  | NotPrimitive => "Cannot convert object to primitive value"
  end.

Definition host : Host :=
  {| Number_toString := exact_decimal;
     TypeError_message := v8_message;
     env_GEMINI_API_KEY := Some "test-key" |}.

End Node.

(** ** Requests and upstreams used in the examples *)

Definition soil_fields (crop temp : value) : gmap string value :=
  {[ "temperature" := temp;
     "humidity" := VNumber 60;
     "moisture" := VNumber 40;
     "nitrogen" := VNumber 50;
     "phosphorus" := VNumber 30;
     "potassium" := VNumber 20;
     "ph" := VNumber 6.5;
     "rainfall" := VNumber 100;
     "cropName" := crop ]}.

Definition soil_payload (crop temp : value) : value := VObject (soil_fields crop temp).

Definition rice : value := soil_payload (VString "rice") (VNumber 25).

(** A body of the documented shape around [text]. *)
Definition gemini_body (text : value) : value :=
  VObject {[ "candidates" :=
    VArray [VObject {[ "content" :=
      VObject {[ "parts" := VArray [VObject {[ "text" := text ]}] ]} ]}] ]}.

Definition answering (d : value) : upstream :=
  λ _ _, Resolved {| status := 200; data := d |}.

Definition rejecting (e : axios_error) : upstream := λ _ _, Rejected e.

Definition quota_error (d : value) : axios_error :=
  {| message := "Request failed with status code 429";
     response := Some {| status := 429; data := d |} |}.

Definition network_error : axios_error :=
  {| message := "connect ETIMEDOUT"; response := None |}.

Definition quota_body : value :=
  VObject {[ "error" :=
    VObject {[ "message" := VString "Resource has been exhausted (e.g. check quota)." ]} ]}.

(** The prompt of the payload above with [temp] written at the temperature. *)
Definition soil_prompt (crop temp : string) : string :=
  prompt_template crop temp "60" "40" "50" "30" "20" "6.5" "100".

Definition rice_call : http_call := @gemini_request Node.host (soil_prompt "rice" "25").


(** An object that has a [toString] entry of its own. *)
Definition opaque_object : value := VObject {[ "toString" := VNumber 1 ]}.

(** ** The rest of the file: start-up *)

(** [const PORT = process.env.PORT || 3000], from the variable as the
    environment has it. *)
Definition PORT (env_PORT : option string) : value :=
  or_else (from_option VString VUndefined env_PORT) (VNumber 3000).

(** The two lines that the callback of [app.listen] prints. *)
Definition listen_banner `{Host} (port : value) : result (list string) :=
  running ← ToString port;
  ready ← ToString port;
  Ok ["🚀 Server running on port " +:+ running;
      "🌱 Ready to analyze soil at http://localhost:" +:+ ready +:+ "/analyze-soil"].

(** ** Reading traces and texts *)

(** What a trace has logged, in order. *)
Fixpoint logs (tr : list event) : list (list value) :=
  match tr with
  | [] => []
  | EvLog args :: rest => args :: logs rest
  | EvPost _ _ :: rest => logs rest
  end.

(** Texts separated by commas. *)
Fixpoint comma_join (ss : list string) : string :=
  match ss with
  | [] => ""
  | s :: rest =>
      match rest with
      | [] => s
      | _ :: _ => s +:+ comma +:+ comma_join rest
      end
  end.

(** The same host with another API key in its environment. *)
Definition with_key `{Host} (key : option string) : Host :=
  {| Number_toString := Number_toString;
     TypeError_message := TypeError_message;
     env_GEMINI_API_KEY := key |}.

(** The line of the template that follows the moisture. *)
Definition nitrogen_label : string := nl +:+ "🧪 Nitrogen (N): ".

(** * Properties *)

Section Facts.
Context `{Host}.

Implicit Types (up : upstream) (past : list http_call) (body : value).
Implicit Types (s : soil_sample) (o : gmap string value).

(** *** How a request runs *)

Lemma destructure_Ok body s :
  destructure body = Ok s → nullish body = false ∧ s = bindings body.
Proof. destruct body; simpl; intros E; inversion E; split; reflexivity. Qed.

Lemma destructure_object o : destructure (VObject o) = Ok (bindings (VObject o)).
Proof. reflexivity. Qed.

Lemma run_throw up past body e :
  destructure body = Throw e →
  run up past (analyze_soil body) = (catch_block e, []).
Proof.
  intros E. unfold analyze_soil, try_block. rewrite E. reflexivity.
Qed.

Lemma run_missing up past body s :
  destructure body = Ok s → missing_fields s = true →
  run up past (analyze_soil body) = (bad_request, []).
Proof.
  intros E M. unfold analyze_soil, try_block. rewrite E, M. reflexivity.
Qed.

Lemma run_unprintable up past body s e :
  destructure body = Ok s → missing_fields s = false → prompt s = Throw e →
  run up past (analyze_soil body) = (catch_block e, []).
Proof.
  intros E M P. unfold analyze_soil, try_block. rewrite E, M, P. reflexivity.
Qed.

Lemma run_forward up past body s text :
  destructure body = Ok s → missing_fields s = false → prompt s = Ok text →
  run up past (analyze_soil body) =
    after_call s (gemini_request text) (up past (gemini_request text)).
Proof.
  intros E M P. unfold analyze_soil, try_block. rewrite E, M, P.
  simpl. destruct (up past (gemini_request text)); reflexivity.
Qed.

Lemma calls_after_call s c outcome : calls (after_call s c outcome).2 = [c].
Proof. destruct outcome; reflexivity. Qed.

(** Every run falls in one of the four cases above. *)
Lemma run_cases up past body :
  (∃ e, run up past (analyze_soil body) = (catch_block e, [])) ∨
  run up past (analyze_soil body) = (bad_request, []) ∨
  (∃ s text,
     destructure body = Ok s ∧ missing_fields s = false ∧ prompt s = Ok text ∧
     run up past (analyze_soil body) =
       after_call s (gemini_request text) (up past (gemini_request text))).
Proof.
  destruct (destructure body) as [s|e] eqn:E.
  - destruct (missing_fields s) eqn:M.
    + right; left. eapply run_missing; eauto.
    + destruct (prompt s) as [text|e] eqn:P.
      * right; right. exists s, text. eauto using run_forward.
      * left. exists e. eapply run_unprintable; eauto.
  - left. exists e. by apply run_throw.
Qed.

(** A call found in the trace is the one call of a validated request, and
    its outcome decides the answer. *)
Lemma run_post_inv up past body c outcome :
  EvPost c outcome ∈ (run up past (analyze_soil body)).2 →
  ∃ s text,
    destructure body = Ok s ∧ missing_fields s = false ∧ prompt s = Ok text ∧
    c = gemini_request text ∧ outcome = up past c ∧
    run up past (analyze_soil body) = after_call s c outcome.
Proof.
  intros Hin.
  destruct (run_cases up past body) as [[e R]|[R|(s & text & E & M & P & R)]];
    rewrite R in Hin; simpl in Hin.
  - by apply elem_of_nil in Hin.
  - by apply elem_of_nil in Hin.
  - exists s, text.
    assert (c = gemini_request text ∧ outcome = up past (gemini_request text))
      as [-> ->].
    { destruct (up past (gemini_request text)); simpl in Hin;
        repeat (apply elem_of_cons in Hin as [Hin|Hin]; [by inversion Hin|]);
        by apply elem_of_nil in Hin. }
    by rewrite R.
Qed.

Lemma first_text_path d v : first_text d = Some v → text_path d = v.
Proof.
  unfold first_text. intros E.
  destruct d as [| | | | | |o]; try discriminate.
  destruct (o !! "candidates") as [[| | | | |[|[| | | | | |candidate] ?]|]|] eqn:E1;
    try discriminate.
  destruct (candidate !! "content") as [[| | | | | |content]|] eqn:E2;
    try discriminate.
  destruct (content !! "parts") as [[| | | | |[|[| | | | | |part] ?]|]|] eqn:E3;
    try discriminate.
  unfold text_path, opt_member; simpl.
  rewrite E1; simpl. rewrite E2; simpl. rewrite E3; simpl. by rewrite E.
Qed.

(** *** Validation *)

Lemma missing_fields_false s :
  missing_fields s = false ↔
    temperature s ≠ VUndefined ∧ humidity s ≠ VUndefined ∧
    moisture s ≠ VUndefined ∧ nitrogen s ≠ VUndefined ∧
    phosphorus s ≠ VUndefined ∧ potassium s ≠ VUndefined ∧
    ph s ≠ VUndefined ∧ rainfall s ≠ VUndefined ∧
    truthy (cropName s) = true.
Proof.
  assert (U : ∀ v, is_undefined v = false ↔ v ≠ VUndefined).
  { intros []; simpl; split; congruence. }
  unfold missing_fields.
  rewrite !orb_false_iff, negb_false_iff, !U. tauto.
Qed.


Lemma prompt_Ok s c t h m n p k a r :
  ToString (cropName s) = Ok c → ToString (temperature s) = Ok t →
  ToString (humidity s) = Ok h → ToString (moisture s) = Ok m →
  ToString (nitrogen s) = Ok n → ToString (phosphorus s) = Ok p →
  ToString (potassium s) = Ok k → ToString (ph s) = Ok a →
  ToString (rainfall s) = Ok r →
  prompt s = Ok (prompt_template c t h m n p k a r).
Proof.
  intros Hc Ht Hh Hm Hn Hp Hk Ha Hr. unfold prompt.
  rewrite Hc, Ht, Hh, Hm, Hn, Hp, Hk, Ha, Hr. reflexivity.
Qed.


(** *** Failures of the upstream call *)

Lemma catch_429 e r :
  response e = Some r → status r = 429 →
  catch_block (AxiosError e) =
    {| res_status := 429;
       res_json :=
         VObject {[ "error" := VString rate_limit_error;
                    "message" :=
                      or_else (upstream_message (data r)) (VString quota_message) ]} |}.
Proof.
  intros R S. unfold catch_block. simpl. rewrite R. simpl. rewrite S. reflexivity.
Qed.

Lemma catch_other e :
  (∀ r, response e = Some r → status r ≠ 429) →
  catch_block (AxiosError e) =
    {| res_status := 500;
       res_json :=
         VObject {[ "error" := VString internal_error;
                    "message" := VString (message e) ]} |}.
Proof.
  intros N. unfold catch_block. simpl.
  destruct (response e) as [r|] eqn:R; [|reflexivity].
  destruct (Z.eqb_spec (status r) 429) as [E|_]; [|reflexivity].
  by destruct (N r eq_refl).
Qed.

(** C2. When the upstream call of a request fails with an error that carries
    HTTP status 429, the answer is 429 with the fixed [error] text; its
    [message] is the upstream's own quota message when there is one, and the
    generic wait-and-retry text otherwise. *)
Theorem rate_limit_is_relayed up body c e r :
  EvPost c (Rejected e) ∈ (serve up body).2 →
  response e = Some r →
  status r = 429 →
  (serve up body).1 =
    {| res_status := 429;
       res_json :=
         VObject {[ "error" :=
                      VString "Gemini API rate limit exceeded. (RESOURCE_EXHAUSTED)";
                    "message" :=
                      if truthy (upstream_message (data r))
                      then upstream_message (data r)
                      else VString "Quota exceeded. Please wait 1 minute and try again." ]} |}.
Proof.
  intros Hin R S. unfold serve in *.
  apply run_post_inv in Hin as (s & text & _ & _ & _ & _ & _ & ->).
  simpl. by apply catch_429.
Qed.

(** C3. When the upstream call of a request fails with any error that does
    not carry status 429, a failure without a response included, the answer
    is 500 with an [error] field and a [message] field, the latter being the
    error's own message. *)
Theorem other_failures_are_500 up body c e :
  EvPost c (Rejected e) ∈ (serve up body).2 →
  (∀ r, response e = Some r → status r ≠ 429) →
  (serve up body).1 =
    {| res_status := 500;
       res_json :=
         VObject {[ "error" :=
                      VString "Internal Server Error. Please check your request or server logs.";
                    "message" := VString (message e) ]} |}.
Proof.
  intros Hin N. unfold serve in *.
  apply run_post_inv in Hin as (s & text & _ & _ & _ & _ & _ & ->).
  simpl. by apply catch_other.
Qed.

(** *** Answers of the upstream call *)

Lemma member_analysis x y z :
  member (VObject {[ "success" := x; "crop" := y; "analysis" := z ]}) "analysis" = z.
Proof. simpl. by simplify_map_eq. Qed.

(** C4, as amended. When the upstream call succeeds with a body of the
    documented shape whose first candidate's first part carries a non-empty
    text, the [analysis] field of the answer is exactly that text. *)
Theorem analysis_is_first_text up body c r (text : string) :
  EvPost c (Resolved r) ∈ (serve up body).2 →
  first_text (data r) = Some (VString text) →
  text ≠ "" →
  member (res_json (serve up body).1) "analysis" = VString text.
Proof.
  intros Hin F Hne. unfold serve in *.
  apply run_post_inv in Hin as (s & t & _ & _ & _ & _ & _ & ->).
  cbn [after_call fst success res_json]. rewrite member_analysis.
  unfold aiText, or_else. rewrite (first_text_path _ _ F). simpl.
  by apply String.eqb_neq in Hne as ->.
Qed.


(** C8. Whenever the upstream call of a request succeeds, the answer is 200
    with the body made of [success] true, [crop] the payload's cropName as it
    came, and [analysis] the text taken from the upstream body; the rice
    payload against an upstream answering "Yes, suitable." is answered with
    crop "rice" and that analysis. *)
Theorem success_answer_shape :
  (∀ up body c r,
     EvPost c (Resolved r) ∈ (serve up body).2 →
     (serve up body).1 =
       {| res_status := 200;
          res_json :=
            VObject {[ "success" := VBool true;
                       "crop" := member body "cropName";
                       "analysis" := aiText r ]} |})
  ∧
  (serve (answering (gemini_body (VString "Yes, suitable."))) rice).1 =
    {| res_status := 200;
       res_json :=
         VObject {[ "success" := VBool true;
                    "crop" := VString "rice";
                    "analysis" := VString "Yes, suitable." ]} |}.
Proof.
  split.
  - intros up body c r Hin. unfold serve in *.
    apply run_post_inv in Hin as (s & t & E & _ & _ & _ & _ & ->).
    by apply destructure_Ok in E as [_ ->].
  - vm_compute. reflexivity.
Qed.

(** C9. When the upstream call succeeds with a body of the documented shape
    whose first candidate's first part carries the empty text, the
    [analysis] field is the fallback text and not the empty text. *)
Theorem empty_text_falls_back up body c r :
  EvPost c (Resolved r) ∈ (serve up body).2 →
  first_text (data r) = Some (VString "") →
  member (res_json (serve up body).1) "analysis" = VString "No response from Gemini." ∧
  member (res_json (serve up body).1) "analysis" ≠ VString "".
Proof.
  intros Hin F. unfold serve in *.
  apply run_post_inv in Hin as (s & t & _ & _ & _ & _ & _ & ->).
  cbn [after_call fst success res_json]. rewrite member_analysis.
  unfold aiText, or_else. rewrite (first_text_path _ _ F). simpl.
  split; [reflexivity|discriminate].
Qed.

(** *** The prompt and the calls *)

(** Whatever the upstream does and whatever came before, the calls of a run
    are those read off the body. *)
Lemma calls_run up past body :
  calls (run up past (analyze_soil body)).2 = outbound body.
Proof.
  unfold outbound.
  destruct (destructure body) as [s|e] eqn:E.
  - destruct (missing_fields s) eqn:M.
    + by rewrite (run_missing _ _ _ _ E M).
    + destruct (prompt s) as [text|e] eqn:P.
      * rewrite (run_forward _ _ _ _ _ E M P). apply calls_after_call.
      * by rewrite (run_unprintable _ _ _ _ _ E M P).
  - by rewrite (run_throw _ _ _ _ E).
Qed.

Lemma outbound_at_most_one body : (length (outbound body) ≤ 1)%nat.
Proof.
  unfold outbound.
  destruct (destructure body) as [s|]; simpl; [|lia].
  destruct (missing_fields s); simpl; [lia|].
  destruct (prompt s); simpl; lia.
Qed.

Lemma bindings_agree o1 o2 :
  (∀ k, k ∈ required_fields → o1 !! k = o2 !! k) →
  bindings (VObject o1) = bindings (VObject o2).
Proof.
  intros A. unfold bindings, member.
  rewrite !A; [reflexivity|..]; unfold required_fields; set_solver.
Qed.

(** C6. The prompt is a function of the nine fields of the payload alone:
    two payloads that agree on the nine fields give the same prompt text,
    and two runs on them send the same request upstream, whatever the
    upstreams answer and whatever was served before. *)
Theorem prompt_is_deterministic up1 up2 past1 past2 o1 o2 :
  (∀ k, k ∈ required_fields → o1 !! k = o2 !! k) →
  prompt (bindings (VObject o1)) = prompt (bindings (VObject o2)) ∧
  calls (run up1 past1 (analyze_soil (VObject o1))).2 =
    calls (run up2 past2 (analyze_soil (VObject o2))).2.
Proof.
  intros A. apply bindings_agree in A.
  split; [by rewrite A|].
  rewrite !calls_run. unfold outbound. simpl. by rewrite A.
Qed.

(** C7, as amended. A request makes at most one upstream call, whatever the
    upstream answers: none when validation fails, and exactly one, carrying
    the prompt, when validation passes and the nine fields convert to
    text. *)
Theorem at_most_one_upstream_call up body :
  (length (calls (serve up body).2) ≤ 1)%nat ∧
  (∀ s, destructure body = Ok s → missing_fields s = true →
     calls (serve up body).2 = []) ∧
  (∀ s text,
     destructure body = Ok s → missing_fields s = false → prompt s = Ok text →
     calls (serve up body).2 = [gemini_request text]).
Proof.
  unfold serve. rewrite calls_run. split; [apply outbound_at_most_one|].
  unfold outbound. split.
  - intros s E M. by rewrite E, M.
  - intros s text E M P. by rewrite E, M, P.
Qed.

Lemma ToString_flat v :
  (∀ o, v ≠ VObject o) → (∀ l, v ≠ VArray l) → ∃ text, ToString v = Ok text.
Proof.
  intros NO NA. destruct v; simpl; eauto.
  - by destruct (NA l).
  - by destruct (NO o).
Qed.

(** C10, as amended. Validation asks of the eight measurements only that
    they are not undefined, and of cropName that it is truthy.  A value that
    passes and converts to text, as null, booleans, numbers and texts always
    do, is interpolated into the prompt that is forwarded.  A cropName that
    is the empty text, zero or false is answered 400. *)
Theorem validation_is_presence_only up body s :
  destructure body = Ok s →
  (missing_fields s = false ↔
     temperature s ≠ VUndefined ∧ humidity s ≠ VUndefined ∧
     moisture s ≠ VUndefined ∧ nitrogen s ≠ VUndefined ∧
     phosphorus s ≠ VUndefined ∧ potassium s ≠ VUndefined ∧
     ph s ≠ VUndefined ∧ rainfall s ≠ VUndefined ∧
     truthy (cropName s) = true)
  ∧
  (missing_fields s = false →
   ∀ c t h m n p k a r,
     ToString (cropName s) = Ok c → ToString (temperature s) = Ok t →
     ToString (humidity s) = Ok h → ToString (moisture s) = Ok m →
     ToString (nitrogen s) = Ok n → ToString (phosphorus s) = Ok p →
     ToString (potassium s) = Ok k → ToString (ph s) = Ok a →
     ToString (rainfall s) = Ok r →
     calls (serve up body).2 = [gemini_request (prompt_template c t h m n p k a r)])
  ∧
  (ToString VNull = Ok "null" ∧
   (∀ x, ToString (VString x) = Ok x) ∧
   (∀ v, (∀ o, v ≠ VObject o) → (∀ l, v ≠ VArray l) → ∃ text, ToString v = Ok text))
  ∧
  (cropName s = VString "" ∨ cropName s = VNumber 0 ∨ cropName s = VBool false →
   serve up body =
     ({| res_status := 400;
         res_json :=
           VObject {[ "error" :=
             VString "Missing required fields in the request body." ]} |}, [])).
Proof.
  intros E. split; [apply missing_fields_false|]. split; [|split].
  - intros M c t h m n p k a r Hc Ht Hh Hm Hn Hp Hk Ha Hr.
    unfold serve. rewrite calls_run. unfold outbound.
    by rewrite E, M, (prompt_Ok _ _ _ _ _ _ _ _ _ _ Hc Ht Hh Hm Hn Hp Hk Ha Hr).
  - split; [reflexivity|]. split; [reflexivity|]. apply ToString_flat.
  - intros F. unfold serve. apply (run_missing _ _ _ _ E).
    unfold missing_fields.
    assert (T : truthy (cropName s) = false)
      by (destruct F as [ -> | [ -> | -> ] ]; reflexivity).
    rewrite T. simpl. apply orb_true_r.
Qed.

(** *** Every way a request can end *)

Lemma value_array_ind (P : value → Prop) :
  P VUndefined → P VNull → (∀ b, P (VBool b)) → (∀ f, P (VNumber f)) →
  (∀ x, P (VString x)) → (∀ l, Forall P l → P (VArray l)) →
  (∀ o, P (VObject o)) → ∀ v, P v.
Proof.
  intros HU HN HB HF HS HA HO. fix IH 1. intros [| |b|f|x|l|o].
  - exact HU.
  - exact HN.
  - apply HB.
  - apply HF.
  - apply HS.
  - apply HA. induction l as [|v l IHl]; constructor; [apply IH | exact IHl].
  - apply HO.
Qed.

(** How the conversion of an array proceeds, element by element. *)
Lemma ToString_array_cons x l :
  ToString (VArray (x :: l)) =
    match (if nullish x then Ok "" else ToString x) with
    | Throw e => Throw e
    | Ok s =>
        match l with
        | [] => Ok s
        | _ :: _ =>
            match ToString (VArray l) with
            | Throw e => Throw e
            | Ok r => Ok (s +:+ comma +:+ r)
            end
        end
    end.
Proof. reflexivity. Qed.

(** The only thing a conversion to text can throw. *)
Lemma ToString_Throw v e : ToString v = Throw e → e = TypeError NotPrimitive.
Proof.
  revert e. induction v as [| | | | |l IH|o] using value_array_ind;
    intros e; try discriminate.
  - revert e. induction IH as [|x l Hx _ IHl]; intros e; [discriminate|].
    rewrite ToString_array_cons.
    assert (X : ∀ e', (if nullish x then Ok "" else ToString x) = Throw e' →
                      e' = TypeError NotPrimitive).
    { destruct (nullish x); [discriminate|apply Hx]. }
    destruct (if nullish x then Ok "" else ToString x) as [sx|ex];
      [|intros [= <-]; by apply X].
    destruct l as [|y l]; [discriminate|].
    destruct (ToString (VArray (y :: l))) as [r|er]; [discriminate|].
    intros [= <-]. by apply IHl.
  - simpl. destruct (o !! "toString"); [by intros [= <-]|discriminate].
Qed.

Lemma prompt_Throw s e : prompt s = Throw e → e = TypeError NotPrimitive.
Proof.
  unfold prompt.
  repeat (match goal with
          | |- context [ToString ?v] =>
              let E := fresh "E" in
              destruct (ToString v) eqn:E;
              [simpl | intros [= <-]; by eapply ToString_Throw]
          end).
  discriminate.
Qed.

Lemma catch_TypeError t :
  catch_block (TypeError t) =
    {| res_status := 500;
       res_json :=
         VObject {[ "error" := VString internal_error;
                    "message" := VString (TypeError_message t) ]} |}.
Proof. reflexivity. Qed.

Lemma catch_status e :
  res_status (catch_block e) = 429 ∧
    (∃ r, exn_response e = Some r ∧ status r = 429) ∨
  res_status (catch_block e) = 500 ∧
    (∀ r, exn_response e = Some r → status r ≠ 429).
Proof.
  unfold catch_block. destruct (exn_response e) as [r|]; [|by right].
  destruct (Z.eqb_spec (status r) 429) as [E|N].
  - left. eauto.
  - right. split; [done|]. by intros ? [= <-].
Qed.

(** The five ways in which serving a body ends. *)
Lemma serve_outcomes up body :
  (∃ t, destructure body = Throw (TypeError t) ∧
        serve up body = (catch_block (TypeError t), [])) ∨
  (∃ s, destructure body = Ok s ∧ missing_fields s = true ∧
        serve up body = (bad_request, [])) ∨
  (∃ s, destructure body = Ok s ∧ missing_fields s = false ∧
        prompt s = Throw (TypeError NotPrimitive) ∧
        serve up body = (catch_block (TypeError NotPrimitive), [])) ∨
  (∃ s text r,
     destructure body = Ok s ∧ missing_fields s = false ∧ prompt s = Ok text ∧
     up [] (gemini_request text) = Resolved r ∧
     serve up body = (success s r, [EvPost (gemini_request text) (Resolved r)])) ∨
  (∃ s text e,
     destructure body = Ok s ∧ missing_fields s = false ∧ prompt s = Ok text ∧
     up [] (gemini_request text) = Rejected e ∧
     serve up body =
       (catch_block (AxiosError e),
        [EvPost (gemini_request text) (Rejected e); EvLog (log_line e)])).
Proof.
  unfold serve. destruct (destructure body) as [s|e] eqn:E.
  - destruct (missing_fields s) eqn:M.
    + right; left. exists s. eauto using run_missing.
    + destruct (prompt s) as [text|e] eqn:P.
      * rewrite (run_forward _ _ _ _ _ E M P).
        destruct (up [] (gemini_request text)) as [r|e] eqn:U.
        -- do 3 right; left. by exists s, text, r.
        -- do 4 right. by exists s, text, e.
      * pose proof (prompt_Throw _ _ P) as ->.
        do 2 right; left. exists s. eauto using run_unprintable.
  - left. destruct body; simpl in E; try discriminate;
      injection E as <-; eexists; split; try reflexivity.
Qed.

(** X1. Whatever the body and whatever the upstream does, the answer carries
    one of the four statuses 200, 400, 429 and 500. *)
Theorem answer_status_is_one_of_four up body :
  res_status (serve up body).1 = 200 ∨ res_status (serve up body).1 = 400 ∨
  res_status (serve up body).1 = 429 ∨ res_status (serve up body).1 = 500.
Proof.
  destruct (serve_outcomes up body)
    as [(t & _ & ->)|[(s & _ & _ & ->)|[(s & _ & _ & _ & ->)
       |[(s & text & r & _ & _ & _ & _ & ->)|(s & text & e & _ & _ & _ & _ & ->)]]]];
    simpl; auto.
  destruct (catch_status (AxiosError e)) as [[-> _]|[-> _]]; auto.
Qed.

(** X2. The answer is 200 exactly when the upstream call was made and
    resolved. *)
Theorem ok_iff_upstream_resolved up body :
  res_status (serve up body).1 = 200 ↔
  ∃ c r, EvPost c (Resolved r) ∈ (serve up body).2.
Proof.
  split.
  - destruct (serve_outcomes up body)
      as [(t & _ & ->)|[(s & _ & _ & ->)|[(s & _ & _ & _ & ->)
         |[(s & text & r & _ & _ & _ & _ & ->)|(s & text & e & _ & _ & _ & _ & ->)]]]];
      simpl; try discriminate.
    + intros _. exists (gemini_request text), r. apply elem_of_cons; by left.
    + destruct (catch_status (AxiosError e)) as [[-> _]|[-> _]]; discriminate.
  - intros (c & r & Hin). unfold serve in *.
    by apply run_post_inv in Hin as (s & text & _ & _ & _ & _ & _ & ->).
Qed.

(** X3. The answer is 400 exactly when the body could be read and the check
    of the required fields failed; it is then the fixed missing-fields
    answer, and nothing was sent or logged.  No answer of the upstream, its
    own 400 included, comes back as a 400. *)
Theorem bad_request_iff_fields_missing up body :
  (res_status (serve up body).1 = 400 ↔
     ∃ s, destructure body = Ok s ∧ missing_fields s = true) ∧
  (res_status (serve up body).1 = 400 → serve up body = (bad_request, [])).
Proof.
  destruct (serve_outcomes up body)
    as [(t & E & R)|[(s & E & M & R)|[(s & E & M & _ & R)
       |[(s & text & r & E & M & _ & _ & R)|(s & text & e & E & M & _ & _ & R)]]]];
    rewrite R; simpl.
  - split; [split|]; try discriminate. intros (s & E' & _). congruence.
  - split; [split|]; eauto.
  - split; [split|]; try discriminate. intros (s' & E' & M'). congruence.
  - split; [split|]; try discriminate. intros (s' & E' & M'). congruence.
  - destruct (catch_status (AxiosError e)) as [[S _]|[S _]]; rewrite S;
      (split; [split|]; try discriminate); intros (s' & E' & M'); congruence.
Qed.

(** X4. The answer is 429 exactly when the upstream call was rejected with a
    response of status 429; a rejection with any other status, or with no
    response, never gives 429. *)
Theorem rate_limit_iff_upstream_429 up body :
  res_status (serve up body).1 = 429 ↔
  ∃ c e r, EvPost c (Rejected e) ∈ (serve up body).2 ∧
           response e = Some r ∧ status r = 429.
Proof.
  split.
  - destruct (serve_outcomes up body)
      as [(t & _ & ->)|[(s & _ & _ & ->)|[(s & _ & _ & _ & ->)
         |[(s & text & r & _ & _ & _ & _ & ->)|(s & text & e & _ & _ & _ & _ & ->)]]]];
      simpl; try discriminate.
    destruct (catch_status (AxiosError e)) as [[_ (r & R & S)]|[-> _]];
      [|discriminate].
    intros _. exists (gemini_request text), e, r.
    split; [apply elem_of_cons; by left|done].
  - intros (c & e & r & Hin & R & S). unfold serve in *.
    apply run_post_inv in Hin as (s & text & _ & _ & _ & _ & _ & ->).
    simpl. by rewrite (catch_429 _ _ R S).
Qed.

(** X5. The trace of a request is empty, or the one call when it resolved,
    or the one call followed by one logged line when it was rejected.  The
    line is the marker followed by the body of the upstream's response when
    that body is truthy and by the error's message otherwise. *)
Theorem failure_is_logged_once up body :
  (serve up body).2 = [] ∨
  (∃ c r, (serve up body).2 = [EvPost c (Resolved r)]) ∨
  (∃ c e,
     (serve up body).2 =
       [EvPost c (Rejected e);
        EvLog [VString "❌ Error calling Gemini:";
               if truthy (response_data (response e))
               then response_data (response e)
               else VString (message e)]]).
Proof.
  destruct (serve_outcomes up body)
    as [(t & _ & ->)|[(s & _ & _ & ->)|[(s & _ & _ & _ & ->)
       |[(s & text & r & _ & _ & _ & _ & ->)|(s & text & e & _ & _ & _ & _ & ->)]]]];
    simpl; eauto.
Qed.

(** *** What is sent *)

(** X6. Every call found in the trace of a request goes to the fixed
    endpoint with the key of the environment as the [key] query parameter,
    the empty key when the variable is unset, carries the one JSON
    content-type header, and wraps the prompt built from the body as the
    text of the single part of a single content. *)
Theorem every_call_is_the_prompt_envelope up body c :
  c ∈ calls (serve up body).2 →
  ∃ text,
    prompt (bindings body) = Ok text ∧
    url c = GEMINI_API_URL +:+ "?key=" +:+
              match env_GEMINI_API_KEY with Some key => key | None => "" end ∧
    headers c = {[ "Content-Type" := "application/json" ]} ∧
    payload c =
      VObject {[ "contents" :=
        VArray [VObject {[ "parts" :=
          VArray [VObject {[ "text" := VString text ]}] ]}] ]}.
Proof.
  unfold serve. rewrite calls_run. unfold outbound.
  destruct (destructure body) as [s|] eqn:E; [|by intros ?%elem_of_nil].
  apply destructure_Ok in E as [_ ->].
  destruct (missing_fields _); [by intros ?%elem_of_nil|].
  destruct (prompt _) as [text|]; [|by intros ?%elem_of_nil].
  intros ->%list_elem_of_singleton. exists text.
  split; [done|]. split; [|done].
  unfold gemini_request, apiKey. simpl. by destruct env_GEMINI_API_KEY.
Qed.

(** X7. When a body passes validation and one of its fields cannot be
    converted to text, the answer is 500 with the engine's message for an
    object that is not convertible, and nothing is sent or logged. *)
Theorem unconvertible_field_is_500 up body s e :
  destructure body = Ok s → missing_fields s = false → prompt s = Throw e →
  serve up body =
    ({| res_status := 500;
        res_json :=
          VObject {[ "error" :=
                       VString "Internal Server Error. Please check your request or server logs.";
                     "message" := VString (TypeError_message NotPrimitive) ]} |}, []).
Proof.
  intros E M P. unfold serve. rewrite (run_unprintable _ _ _ _ _ E M P).
  by rewrite (prompt_Throw _ _ P).
Qed.

(** *** Bodies that are not objects *)

(** X8. A body that is present and is not an object (an array, a text, a
    number, a boolean) has none of the nine fields: it is answered 400 with
    the missing-fields message, and nothing is sent. *)
Theorem non_object_body_is_400 up body :
  nullish body = false → (∀ o, body ≠ VObject o) →
  serve up body =
    ({| res_status := 400;
        res_json :=
          VObject {[ "error" :=
            VString "Missing required fields in the request body." ]} |}, []).
Proof.
  intros N O. unfold serve.
  destruct body as [| |b|f|x|l|o]; try discriminate;
    try (rewrite (run_missing up [] _ (bindings _)) by reflexivity; reflexivity).
  by destruct (O o).
Qed.

(** X9. A request whose body is undefined or null is not answered 400:
    reading the fields throws, and the answer is 500 with the engine's
    message; nothing is sent or logged. *)
Theorem unread_body_is_500 up body :
  nullish body = true →
  ∃ t,
    (t = DestructureUndefined ∨ t = DestructureNull) ∧
    serve up body =
      ({| res_status := 500;
          res_json :=
            VObject {[ "error" :=
                         VString "Internal Server Error. Please check your request or server logs.";
                       "message" := VString (TypeError_message t) ]} |}, []).
Proof.
  intros N. destruct body; try discriminate.
  - exists DestructureUndefined. split; [by left|reflexivity].
  - exists DestructureNull. split; [by right|reflexivity].
Qed.

(** *** What the answers contain *)






Lemma text_path_no_candidates d :
  (∀ o, d ≠ VObject o) ∨
  (∃ o, d = VObject o ∧
        (o !! "candidates" = None ∨ o !! "candidates" = Some VNull ∨
         o !! "candidates" = Some (VArray []))) →
  text_path d = VUndefined.
Proof.
  intros [O|(o & -> & [C|[C|C]])].
  - destruct d as [| |b|f|x|l|o]; try reflexivity. by destruct (O o).
  - unfold text_path, opt_member at 6. simpl. by rewrite C.
  - unfold text_path, opt_member at 6. simpl. by rewrite C.
  - unfold text_path, opt_member at 6, opt_member at 5. simpl. by rewrite C.
Qed.

(** X11. When the upstream call resolves with a body that is not an object,
    or with an object whose [candidates] is missing, null or an empty array,
    [analysis] is the fallback text. *)
Theorem no_candidate_falls_back up body c r :
  EvPost c (Resolved r) ∈ (serve up body).2 →
  (∀ o, data r ≠ VObject o) ∨
  (∃ o, data r = VObject o ∧
        (o !! "candidates" = None ∨ o !! "candidates" = Some VNull ∨
         o !! "candidates" = Some (VArray []))) →
  member (res_json (serve up body).1) "analysis" = VString "No response from Gemini.".
Proof.
  intros Hin D. unfold serve in *.
  apply run_post_inv in Hin as (s & t & _ & _ & _ & _ & _ & ->).
  cbn [after_call fst success res_json]. rewrite member_analysis.
  unfold aiText. by rewrite (text_path_no_candidates _ D).
Qed.


(** X13. Properties of the body other than the nine fields change nothing:
    two bodies that agree on the nine fields get the same answer and leave
    the same trace against the same upstream. *)
Theorem other_properties_are_ignored up o1 o2 :
  (∀ k, k ∈ required_fields → o1 !! k = o2 !! k) →
  serve up (VObject o1) = serve up (VObject o2).
Proof.
  intros A. apply bindings_agree in A.
  unfold serve, analyze_soil, try_block. rewrite !destructure_object.
  by rewrite A.
Qed.

(** *** The template *)

Lemma append_assoc (a b c : string) : (a +:+ b) +:+ c = a +:+ (b +:+ c).
Proof.
  induction a as [|x a IH]; [reflexivity|].
  change (String x ((a +:+ b) +:+ c) = String x (a +:+ (b +:+ c))). by f_equal.
Qed.

Lemma append_longer (a b : string) : b ≠ "" → a +:+ b ≠ a.
Proof.
  intros B E. induction a as [|x a IH]; [done|].
  change (String x (a +:+ b) = String x a) in E.
  injection E as E. by apply IH.
Qed.

(** X14. The template does not keep the fields apart: a moisture that ends
    with the text of the nitrogen line gives the very prompt that the
    shorter moisture gives when that text is moved to the front of the
    nitrogen field, although the two moistures differ. *)
Theorem template_does_not_keep_fields_apart
    (c t h A B C p k a r : string) :
  prompt_template c t h (A +:+ nitrogen_label +:+ B) C p k a r =
    prompt_template c t h A (B +:+ nitrogen_label +:+ C) p k a r
  ∧ A +:+ nitrogen_label +:+ B ≠ A.
Proof.
  split.
  - unfold prompt_template, glue. cbn [foldr].
    repeat (apply (f_equal (String.append _))).
    rewrite !append_assoc. reflexivity.
  - apply append_longer. unfold nitrogen_label. simpl. discriminate.
Qed.

Lemma ToString_texts (ss : list string) :
  ToString (VArray (VString <$> ss)) = Ok (comma_join ss).
Proof.
  induction ss as [|x ss IH]; [reflexivity|].
  destruct ss as [|y ss]; [reflexivity|].
  rewrite !fmap_cons in *. rewrite ToString_array_cons, IH. reflexivity.
Qed.

(** X15. A cropName that is an array of texts passes validation whatever
    the texts are, the empty array included, and enters the prompt as the
    texts joined by commas. *)
Theorem array_crop_is_joined up o (ss : list string) (t h m n p k a r : float) :
  o !! "temperature" = Some (VNumber t) → o !! "humidity" = Some (VNumber h) →
  o !! "moisture" = Some (VNumber m) → o !! "nitrogen" = Some (VNumber n) →
  o !! "phosphorus" = Some (VNumber p) → o !! "potassium" = Some (VNumber k) →
  o !! "ph" = Some (VNumber a) → o !! "rainfall" = Some (VNumber r) →
  o !! "cropName" = Some (VArray (VString <$> ss)) →
  calls (serve up (VObject o)).2 =
    [gemini_request
       (prompt_template (comma_join ss) (Number_toString t) (Number_toString h)
          (Number_toString m) (Number_toString n) (Number_toString p)
          (Number_toString k) (Number_toString a) (Number_toString r))].
Proof.
  intros Ht Hh Hm Hn Hp Hk Ha Hr Hc.
  assert (M : missing_fields (bindings (VObject o)) = false).
  { apply missing_fields_false. simpl.
    rewrite Ht, Hh, Hm, Hn, Hp, Hk, Ha, Hr, Hc. simpl.
    repeat split; discriminate. }
  unfold serve. rewrite calls_run. unfold outbound.
  rewrite destructure_object, M.
  erewrite prompt_Ok; [reflexivity|..]; cbn [bindings cropName temperature humidity
    moisture nitrogen phosphorus potassium ph rainfall member];
    rewrite ?Ht, ?Hh, ?Hm, ?Hn, ?Hp, ?Hk, ?Ha, ?Hr, ?Hc; cbn [default];
    try reflexivity.
  apply ToString_texts.
Qed.

(** *** The key and the port *)

(** X16. The API key reaches the upstream through the URL only: with
    another key in the environment, and an upstream that answers the calls
    alike, the answer, the logged lines, and the payload and headers of the
    calls are the same. *)
Theorem key_reaches_only_the_url up1 up2 (key : option string) body :
  (∀ text,
     up1 [] (gemini_request text) = up2 [] (gemini_request (H := with_key key) text)) →
  (serve up1 body).1 = (serve (H := with_key key) up2 body).1 ∧
  logs (serve up1 body).2 = logs (serve (H := with_key key) up2 body).2 ∧
  payload <$> calls (serve up1 body).2 =
    payload <$> calls (serve (H := with_key key) up2 body).2 ∧
  headers <$> calls (serve up1 body).2 =
    headers <$> calls (serve (H := with_key key) up2 body).2.
Proof.
  intros U. unfold serve, analyze_soil, try_block.
  destruct (destructure body) as [s|e]; [|by repeat split].
  destruct (missing_fields s); [by repeat split|].
  change (prompt (H := with_key key) s) with (prompt s).
  destruct (prompt s) as [text|e]; [|by repeat split].
  simpl. rewrite <- U.
  destruct (up1 [] (gemini_request text)); by repeat split.
Qed.

(** X17. The port is 3000 exactly when [PORT] is unset or empty in the
    environment, and any other setting is taken as it is written, not as a
    number.  The two lines that the callback of [app.listen] prints, if the
    server comes to listen, are the fixed texts around that port as text;
    building them never throws. *)
Theorem port_defaults_to_3000 (env_PORT : option string) :
  (PORT env_PORT = VNumber 3000 ↔ env_PORT = None ∨ env_PORT = Some "") ∧
  (∀ p, env_PORT = Some p → p ≠ "" → PORT env_PORT = VString p) ∧
  (∃ shown,
     ToString (PORT env_PORT) = Ok shown ∧
     listen_banner (PORT env_PORT) =
       Ok ["🚀 Server running on port " +:+ shown;
           "🌱 Ready to analyze soil at http://localhost:" +:+ shown +:+ "/analyze-soil"]).
Proof.
  assert (P : ∀ p, p ≠ "" → PORT (Some p) = VString p).
  { intros p N. unfold PORT, or_else. simpl.
    by apply String.eqb_neq in N as ->. }
  split; [|split].
  - split.
    + destruct env_PORT as [p|]; [|by left].
      destruct (String.eqb_spec p "") as [->|N]; [by right|].
      by rewrite (P p N).
    + by intros [->| ->].
  - intros p -> N. by apply P.
  - destruct env_PORT as [p|].
    + destruct (String.eqb_spec p "") as [->|N].
      * eexists. split; [reflexivity|]. reflexivity.
      * rewrite (P p N). eexists. split; reflexivity.
    + eexists. split; reflexivity.
Qed.

End Facts.

(** ** The properties at work on Node.js *)

#[local] Existing Instance Node.host.

Lemma rice_is_forwarded up : EvPost rice_call (up [] rice_call) ∈ (serve up rice).2.
Proof.
  unfold serve.
  rewrite (run_forward up [] rice (bindings rice) (soil_prompt "rice" "25"));
    [|reflexivity..].
  fold rice_call. destruct (up [] rice_call); apply elem_of_cons; by left.
Qed.



Lemma rate_limit_is_relayed_witness :
  EvPost rice_call (Rejected (quota_error quota_body))
    ∈ (serve (rejecting (quota_error quota_body)) rice).2
  ∧ (serve (rejecting (quota_error quota_body)) rice).1 =
      {| res_status := 429;
         res_json :=
           VObject {[ "error" :=
                        VString "Gemini API rate limit exceeded. (RESOURCE_EXHAUSTED)";
                      "message" :=
                        VString "Resource has been exhausted (e.g. check quota)." ]} |}.
Proof.
  split; [apply (rice_is_forwarded (rejecting (quota_error quota_body)))|].
  apply (rate_limit_is_relayed (rejecting (quota_error quota_body)) rice rice_call
           (quota_error quota_body) {| status := 429; data := quota_body |});
    [apply (rice_is_forwarded (rejecting (quota_error quota_body)))
    | reflexivity | reflexivity].
Defined.

Lemma other_failures_are_500_witness :
  (serve (rejecting network_error) rice).1 =
    {| res_status := 500;
       res_json :=
         VObject {[ "error" :=
                      VString "Internal Server Error. Please check your request or server logs.";
                    "message" := VString "connect ETIMEDOUT" ]} |}.
Proof.
  apply (other_failures_are_500 (rejecting network_error) rice rice_call network_error);
    [apply (rice_is_forwarded (rejecting network_error)) | discriminate].
Defined.

Lemma analysis_is_first_text_witness :
  member (res_json (serve (answering (gemini_body (VString "Yes, suitable."))) rice).1)
    "analysis" = VString "Yes, suitable.".
Proof.
  apply (analysis_is_first_text (answering (gemini_body (VString "Yes, suitable.")))
           rice rice_call
           {| status := 200; data := gemini_body (VString "Yes, suitable.") |});
    [apply (rice_is_forwarded (answering (gemini_body (VString "Yes, suitable."))))
    | reflexivity | discriminate].
Defined.

(** C4 as stated fails: a body of the documented shape whose text is present
    and empty is not answered with that text. *)
Lemma present_empty_text_is_not_relayed :
  ∃ up body c r text,
    EvPost c (Resolved r) ∈ (serve up body).2 ∧
    first_text (data r) = Some (VString text) ∧
    member (res_json (serve up body).1) "analysis" ≠ VString text.
Proof.
  exists (answering (gemini_body (VString ""))), rice, rice_call,
    {| status := 200; data := gemini_body (VString "") |}, "".
  split; [apply (rice_is_forwarded (answering (gemini_body (VString ""))))|].
  split; [reflexivity|]. vm_compute. discriminate.
Qed.


Lemma prompt_is_deterministic_witness :
  calls (run (answering (VObject ∅)) [] (analyze_soil rice)).2 =
    calls (run (rejecting network_error) [rice_call]
             (analyze_soil (VObject (<["requestId" := VNumber 7]>
                                       (soil_fields (VString "rice") (VNumber 25)))))).2.
Proof.
  apply (prompt_is_deterministic (answering (VObject ∅)) (rejecting network_error)
           [] [rice_call] (soil_fields (VString "rice") (VNumber 25))
           (<["requestId" := VNumber 7]> (soil_fields (VString "rice") (VNumber 25)))).
  intros k Hk. unfold required_fields in Hk.
  repeat (apply elem_of_cons in Hk as [->|Hk]); try reflexivity.
  by apply elem_of_nil in Hk.
Defined.

(** C7 as stated fails: a payload can pass validation and make no upstream
    call, because building the prompt throws. *)
Lemma validated_request_without_call :
  ∃ up body s,
    destructure body = Ok s ∧ missing_fields s = false ∧
    length (calls (serve up body).2) ≠ 1%nat.
Proof.
  exists (answering (gemini_body (VString "fine"))),
    (soil_payload (VString "rice") opaque_object),
    (bindings (soil_payload (VString "rice") opaque_object)).
  split; [reflexivity|]. split; [reflexivity|]. vm_compute. discriminate.
Qed.

Lemma at_most_one_upstream_call_witness :
  calls (serve (rejecting network_error)
           (VObject (delete "cropName" (soil_fields (VString "rice") (VNumber 25))))).2 = []
  ∧ calls (serve (rejecting network_error) rice).2 = [rice_call].
Proof.
  split.
  - eapply (proj1 (proj2 (at_most_one_upstream_call _ _))); reflexivity.
  - eapply (proj2 (proj2 (at_most_one_upstream_call _ _))); reflexivity.
Defined.

Lemma success_answer_shape_witness :
  (serve (answering (gemini_body (VNumber 42))) rice).1 =
    {| res_status := 200;
       res_json :=
         VObject {[ "success" := VBool true;
                    "crop" := VString "rice";
                    "analysis" := VNumber 42 ]} |}.
Proof.
  apply (proj1 success_answer_shape (answering (gemini_body (VNumber 42))) rice rice_call
           {| status := 200; data := gemini_body (VNumber 42) |}).
  apply (rice_is_forwarded (answering (gemini_body (VNumber 42)))).
Defined.

Lemma empty_text_falls_back_witness :
  member (res_json (serve (answering (gemini_body (VString ""))) rice).1) "analysis"
    = VString "No response from Gemini.".
Proof.
  apply (empty_text_falls_back (answering (gemini_body (VString ""))) rice rice_call
           {| status := 200; data := gemini_body (VString "") |});
    [apply (rice_is_forwarded (answering (gemini_body (VString "")))) | reflexivity].
Defined.

(** C10 as stated fails: a value that is not a number can pass validation
    and still not be interpolated, the request ending in a 500. *)
Lemma validated_value_not_interpolated :
  ∃ body s,
    destructure body = Ok s ∧
    temperature s = opaque_object ∧
    missing_fields s = false ∧
    (∀ text, prompt s ≠ Ok text) ∧
    (∀ up, serve up body =
       ({| res_status := 500;
           res_json :=
             VObject {[ "error" :=
                          VString "Internal Server Error. Please check your request or server logs.";
                        "message" := VString "Cannot convert object to primitive value" ]} |},
        [])).
Proof.
  exists (soil_payload (VString "rice") opaque_object),
    (bindings (soil_payload (VString "rice") opaque_object)).
  split; [reflexivity|]. split; [reflexivity|]. split; [reflexivity|].
  split; [intros text; vm_compute; discriminate|].
  intros up. reflexivity.
Qed.

Lemma validation_is_presence_only_witness :
  calls (serve (answering (VObject ∅)) (soil_payload (VString "rice") VNull)).2 =
    [gemini_request (soil_prompt "rice" "null")]
  ∧ serve (answering (VObject ∅)) (soil_payload (VNumber 0) (VNumber 25)) =
      ({| res_status := 400;
          res_json :=
            VObject {[ "error" :=
              VString "Missing required fields in the request body." ]} |}, []).
Proof.
  split.
  - eapply (proj1 (proj2 (validation_is_presence_only (answering (VObject ∅))
              (soil_payload (VString "rice") VNull)
              (bindings (soil_payload (VString "rice") VNull)) eq_refl)));
      reflexivity.
  - eapply (proj2 (proj2 (proj2 (validation_is_presence_only (answering (VObject ∅))
              (soil_payload (VNumber 0) (VNumber 25))
              (bindings (soil_payload (VNumber 0) (VNumber 25))) eq_refl)))).
    right; left. reflexivity.
Defined.

(** ** The further properties at work on Node.js *)

Lemma ok_iff_upstream_resolved_witness :
  res_status (serve (answering (gemini_body (VString "fine"))) rice).1 = 200.
Proof.
  apply (proj2 (ok_iff_upstream_resolved (answering (gemini_body (VString "fine"))) rice)).
  exists rice_call, {| status := 200; data := gemini_body (VString "fine") |}.
  apply (rice_is_forwarded (answering (gemini_body (VString "fine")))).
Defined.

Lemma bad_request_iff_fields_missing_witness :
  res_status (serve (answering (VObject ∅)) (VObject ∅)).1 = 400.
Proof.
  apply (proj2 (proj1 (bad_request_iff_fields_missing (answering (VObject ∅)) (VObject ∅)))).
  exists (bindings (VObject ∅)). split; reflexivity.
Defined.

Lemma rate_limit_iff_upstream_429_witness :
  res_status (serve (rejecting (quota_error quota_body)) rice).1 = 429.
Proof.
  apply (proj2 (rate_limit_iff_upstream_429 (rejecting (quota_error quota_body)) rice)).
  exists rice_call, (quota_error quota_body), {| status := 429; data := quota_body |}.
  split; [apply (rice_is_forwarded (rejecting (quota_error quota_body)))|].
  split; reflexivity.
Defined.

Lemma every_call_is_the_prompt_envelope_witness :
  ∃ text,
    prompt (bindings rice) = Ok text ∧
    url rice_call = GEMINI_API_URL +:+ "?key=" +:+ "test-key" ∧
    headers rice_call = {[ "Content-Type" := "application/json" ]} ∧
    payload rice_call =
      VObject {[ "contents" :=
        VArray [VObject {[ "parts" :=
          VArray [VObject {[ "text" := VString text ]}] ]}] ]}.
Proof.
  assert (Hin : rice_call ∈ calls (serve (rejecting network_error) rice).2).
  { apply elem_of_cons. left. reflexivity. }
  exact (every_call_is_the_prompt_envelope (rejecting network_error) rice rice_call Hin).
Defined.

Lemma unconvertible_field_is_500_witness :
  serve (answering (VObject ∅)) (soil_payload opaque_object (VNumber 25)) =
    ({| res_status := 500;
        res_json :=
          VObject {[ "error" :=
                       VString "Internal Server Error. Please check your request or server logs.";
                     "message" := VString "Cannot convert object to primitive value" ]} |}, []).
Proof.
  refine (unconvertible_field_is_500 (answering (VObject ∅))
            (soil_payload opaque_object (VNumber 25))
            (bindings (soil_payload opaque_object (VNumber 25)))
            (TypeError NotPrimitive) _ _ _); reflexivity.
Defined.

Lemma non_object_body_is_400_witness :
  serve (answering (VObject ∅)) (VArray [VNumber 25; VString "rice"]) =
    ({| res_status := 400;
        res_json :=
          VObject {[ "error" :=
            VString "Missing required fields in the request body." ]} |}, []).
Proof.
  apply (non_object_body_is_400 (answering (VObject ∅))
           (VArray [VNumber 25; VString "rice"])); [reflexivity|discriminate].
Defined.

Lemma unread_body_is_500_witness :
  ∃ t,
    (t = DestructureUndefined ∨ t = DestructureNull) ∧
    serve (answering (VObject ∅)) VUndefined =
      ({| res_status := 500;
          res_json :=
            VObject {[ "error" :=
                         VString "Internal Server Error. Please check your request or server logs.";
                       "message" := VString (Node.v8_message t) ]} |}, []).
Proof.
  refine (unread_body_is_500 (answering (VObject ∅)) VUndefined _). reflexivity.
Defined.


Lemma no_candidate_falls_back_witness :
  member (res_json (serve (answering (VString "<html>Bad gateway</html>")) rice).1)
    "analysis" = VString "No response from Gemini.".
Proof.
  apply (no_candidate_falls_back (answering (VString "<html>Bad gateway</html>")) rice
           rice_call {| status := 200; data := VString "<html>Bad gateway</html>" |});
    [apply (rice_is_forwarded (answering (VString "<html>Bad gateway</html>")))|].
  left. discriminate.
Defined.


Lemma other_properties_are_ignored_witness :
  serve (answering (gemini_body (VString "fine"))) rice =
    serve (answering (gemini_body (VString "fine")))
      (VObject (<["requestId" := VNumber 7]> (soil_fields (VString "rice") (VNumber 25)))).
Proof.
  apply (other_properties_are_ignored (answering (gemini_body (VString "fine")))
           (soil_fields (VString "rice") (VNumber 25))
           (<["requestId" := VNumber 7]> (soil_fields (VString "rice") (VNumber 25)))).
  intros k Hk. unfold required_fields in Hk.
  repeat (apply elem_of_cons in Hk as [->|Hk]); try reflexivity.
  by apply elem_of_nil in Hk.
Defined.

Lemma array_crop_is_joined_witness :
  calls (serve (answering (VObject ∅))
           (soil_payload (VArray [VString "rice"; VString "wheat"]) (VNumber 25))).2 =
    [gemini_request (soil_prompt "rice,wheat" "25")]
  ∧ calls (serve (answering (VObject ∅)) (soil_payload (VArray []) (VNumber 25))).2 =
      [gemini_request (soil_prompt "" "25")].
Proof.
  split.
  - refine (array_crop_is_joined (answering (VObject ∅))
              (soil_fields (VArray [VString "rice"; VString "wheat"]) (VNumber 25))
              ["rice"; "wheat"] 25%float 60%float 40%float 50%float 30%float 20%float
              6.5%float 100%float _ _ _ _ _ _ _ _ _); reflexivity.
  - refine (array_crop_is_joined (answering (VObject ∅))
              (soil_fields (VArray []) (VNumber 25))
              [] 25%float 60%float 40%float 50%float 30%float 20%float
              6.5%float 100%float _ _ _ _ _ _ _ _ _); reflexivity.
Defined.

Lemma key_reaches_only_the_url_witness :
  (serve (rejecting (quota_error quota_body)) rice).1 =
    (serve (H := with_key None) (rejecting (quota_error quota_body)) rice).1.
Proof.
  apply (key_reaches_only_the_url (rejecting (quota_error quota_body))
           (rejecting (quota_error quota_body)) None rice).
  reflexivity.
Defined.

Lemma port_defaults_to_3000_witness :
  PORT (Some "8080") = VString "8080" ∧ PORT (Some "") = VNumber 3000.
Proof.
  split.
  - apply (proj1 (proj2 (port_defaults_to_3000 (Some "8080"))) "8080");
      [reflexivity|discriminate].
  - apply (proj2 (proj1 (port_defaults_to_3000 (Some "")))). by right.
Defined.
